(** * librm management: placement of the real-mode stub in base memory

    A shallow embedding of [src/arch/i386/transitions/librm_mgmt.c].

    The C file keeps its state in globals ([installed_librm],
    [allocated_librm]) and in lvalues that [librm.h] declares
    ([librm_base], [inst_rm_stack], [inst_librm_ref_count]).  Here the
    globals are the fields of one [state] record which every function
    takes and returns.  Memory is a total map from linear addresses to
    bytes, the build configuration and the external collaborators (address
    translation, the base memory allocator) are the fields of a [Platform],
    and [lockup ()] is an outcome of its own. *)

From Stdlib Require Import String ZArith List Bool Lia.
Import ListNotations.
Open Scope Z_scope.

(** ** Fixed-width integers *)

(** A value stored in a [uint16_t]. *)
Definition wrap16 (x : Z) : Z := x mod 2 ^ 16.

(** A value stored in an unsigned integer of [bits] bits. *)
Definition wrap (bits : N) (x : Z) : Z := x mod 2 ^ Z.of_N bits.

Definition is_uint16 (x : Z) : Prop := 0 <= x < 2 ^ 16.

(** A 32-bit address, linear or physical. *)
Definition is_addr (a : Z) : Prop := 0 <= a < 2 ^ 32.

(** ** Memory *)

Definition memory : Type := Z -> Byte.byte.

Definition store (m : memory) (a : Z) (b : Byte.byte) : memory :=
  fun x => if x =? a then b else m x.

(** The [n] bytes found at [a], [a+1], ... *)
Definition load_bytes (m : memory) (a : Z) (n : nat) : list Byte.byte :=
  map (fun i => m (a + Z.of_nat i)) (seq 0 n).

Fixpoint store_bytes (m : memory) (a : Z) (bs : list Byte.byte) : memory :=
  match bs with
  | [] => m
  | b :: bs' => store_bytes (store m a b) (a + 1) bs'
  end.

(** Modelled from the spec: [memcpy ( dest, src, n )] of [string.h], which
    is not among the sources.  The spec has install copy the bytes of
    StubImage to the address and uninstall copy the installed content back
    into StubImage: the [n] source bytes are read and then written at
    [dest].  C defines the call for regions that do not overlap; the model
    also covers [dest = src], which the code relies on while
    [installed_librm] still points at the master copy. *)
Definition memcpy (m : memory) (dest src n : Z) : memory :=
  store_bytes m dest (load_bytes m src (Z.to_nat n)).

(** The regions of [n] bytes at [a] and at [b] are the same region or share
    no byte: what a call of [memcpy] between them needs. *)
Definition same_or_apart (a b n : Z) : Prop :=
  a = b \/ a + n <= b \/ b + n <= a.

(** ** Program state *)

(** Calls made to the base memory allocator of [basemem.h]. *)
Inductive event : Type :=
| EvAlloc (size ptr : Z)
| EvFree (ptr size : Z).

Definition is_alloc (e : event) : bool :=
  match e with EvAlloc _ _ => true | EvFree _ _ => false end.

Definition is_free (e : event) : bool :=
  match e with EvAlloc _ _ => false | EvFree _ _ => true end.

Definition allocations (l : list event) : nat := length (filter is_alloc l).
Definition frees (l : list event) : nat := length (filter is_free l).

(** Modelled from the spec: the type of [inst_rm_stack], declared in headers
    that are not among the sources.  The spec describes RealModeStack by
    (segment, current-offset), a real-mode address, so both fields are 16-bit
    as is the [uint16_t] that [copy_to_rm_stack] returns the offset in. *)
Record segoff_t : Type := mk_segoff { segment : Z; offset : Z }.

(** The globals of the file, with the memory they point into.

    Modelled from the spec: [librm_base], [inst_rm_stack] and
    [inst_librm_ref_count] are declared by [librm.h], which is not among the
    sources.  The file reads and assigns them as variables, and the record
    holds their current values.  The spec has the stack bookkeeping stored
    inside the installed image; [mem] does not show the bytes that store
    it, so the theorems on what [librm_init], a push or a pop writes leave
    the bytes of the installed image out. *)
Record state : Type := mk_state {
  mem : memory;
  (** [char *installed_librm]: current location of librm in base memory *)
  installed_librm : Z;
  (** [static int allocated_librm], only ever 0 or 1 *)
  allocated_librm : bool;
  (** physical address of the installed librm *)
  librm_base : Z;
  inst_rm_stack : segoff_t;
  inst_librm_ref_count : Z;
  (** the calls made so far to the base memory allocator, oldest first *)
  basemem_log : list event
}.

Definition set_mem (m : memory) (s : state) : state :=
  mk_state m (installed_librm s) (allocated_librm s) (librm_base s)
           (inst_rm_stack s) (inst_librm_ref_count s) (basemem_log s).

Definition set_installed_librm (a : Z) (s : state) : state :=
  mk_state (mem s) a (allocated_librm s) (librm_base s)
           (inst_rm_stack s) (inst_librm_ref_count s) (basemem_log s).

Definition set_allocated_librm (b : bool) (s : state) : state :=
  mk_state (mem s) (installed_librm s) b (librm_base s)
           (inst_rm_stack s) (inst_librm_ref_count s) (basemem_log s).

Definition set_librm_base (p : Z) (s : state) : state :=
  mk_state (mem s) (installed_librm s) (allocated_librm s) p
           (inst_rm_stack s) (inst_librm_ref_count s) (basemem_log s).

Definition set_inst_rm_stack (k : segoff_t) (s : state) : state :=
  mk_state (mem s) (installed_librm s) (allocated_librm s) (librm_base s)
           k (inst_librm_ref_count s) (basemem_log s).

Definition set_inst_librm_ref_count (c : Z) (s : state) : state :=
  mk_state (mem s) (installed_librm s) (allocated_librm s) (librm_base s)
           (inst_rm_stack s) c (basemem_log s).

Definition log_event (e : event) (s : state) : state :=
  mk_state (mem s) (installed_librm s) (allocated_librm s) (librm_base s)
           (inst_rm_stack s) (inst_librm_ref_count s) (basemem_log s ++ [e]).

Definition set_segment (v : Z) (s : state) : state :=
  set_inst_rm_stack (mk_segoff v (offset (inst_rm_stack s))) s.

Definition set_offset (v : Z) (s : state) : state :=
  set_inst_rm_stack (mk_segoff (segment (inst_rm_stack s)) v) s.

(** What a call leaves behind: it returned [a], or it printed [msg] and
    went into [lockup ()], which does not return. *)
Inductive outcome (A : Type) : Type :=
| Done (a : A) (s : state)
| Lockup (msg : string) (s : state).

Arguments Done {A} a s.
Arguments Lockup {A} msg s.

(** The line feed that ends a message. *)
Definition LF : string := String (Ascii.ascii_of_N 10) EmptyString.

Definition bind {A B : Type} (c : outcome A) (k : A -> state -> outcome B)
  : outcome B :=
  match c with
  | Done a s => k a s
  | Lockup msg s => Lockup msg s
  end.

Definition is_lockup {A : Type} (c : outcome A) : bool :=
  match c with Done _ _ => false | Lockup _ _ => true end.

(** Modelled from the spec: the segment registers of [struct i386_all_regs],
    whose declaration is not among the sources.  The foreign entry point
    delivers a segment value through [segs.es]; a segment register holds
    16 bits. *)
Record i386_seg_regs : Type := mk_segs {
  cs : Z; ss : Z; ds : Z; es : Z; fs : Z; gs : Z
}.

Record i386_all_regs : Type := mk_regs {
  segs : i386_seg_regs;
  (** the general registers and flags, which the wrapper does not touch *)
  regs : list Z
}.

Definition set_es (v : Z) (r : i386_all_regs) : i386_all_regs :=
  mk_regs (mk_segs (cs (segs r)) (ss (segs r)) (ds (segs r)) v
                   (fs (segs r)) (gs (segs r)))
          (regs r).

(** Calls of the reference counter, for sequences of them. *)
Inductive ref_op : Type := Acquire | Release.

Definition is_acquire (o : ref_op) : bool :=
  match o with Acquire => true | Release => false end.

Definition is_release (o : ref_op) : bool :=
  match o with Acquire => false | Release => true end.

Definition acquires (ops : list ref_op) : Z :=
  Z.of_nat (length (filter is_acquire ops)).

Definition releases (ops : list ref_op) : Z :=
  Z.of_nat (length (filter is_release ops)).

(** ** What the file takes from elsewhere *)

(** The build configuration and the declarations of other files that
    librm_mgmt.c uses. *)
Class Platform : Type := {
  (** whether the file is compiled with [-DDEBUG_LIBRM] *)
  DEBUG_LIBRM : bool;
  (** the address translator *)
  virt_to_phys : Z -> Z;
  phys_to_virt : Z -> Z;
  (** [char librm[]], the master copy, and its size *)
  librm : Z;
  librm_size : Z;
  (** [alloc_base_memory ( size )]: the address it returns is the
      allocator's choice, given the calls made to it so far *)
  alloc_base_memory : list event -> Z -> Z;
  (** width in bits of [inst_librm_ref_count], which [librm.h] declares *)
  ref_count_bits : N
}.

(** ** The functions of librm_mgmt.c *)

Section Librm.

Context {P : Platform}.

(** [initialise ()], which runs the initialisation and relocation hooks. *)
Variable initialise : state -> state.

(** Modelled from the spec: where the address translator, which is not
    among the sources, finds the real-mode location segment:offset: at
    physical address 16 * segment + offset. *)
Definition real_to_virt (seg off : Z) : Z := phys_to_virt (seg * 16 + off).

(** Modelled from the spec: [copy_to_real ( segment, offset, src, n )] of
    the address translator, a raw byte transfer to a real-mode location. *)
Definition copy_to_real (m : memory) (seg off src n : Z) : memory :=
  memcpy m (real_to_virt seg off) src n.

(** Modelled from the spec: [copy_from_real ( dest, segment, offset, n )] of
    the address translator, a raw byte transfer from a real-mode location. *)
Definition copy_from_real (m : memory) (dest seg off n : Z) : memory :=
  memcpy m dest (real_to_virt seg off) n.

(** Allocate space on the real-mode stack and copy data there. *)
Definition copy_to_rm_stack (data size : Z) (s : state) : outcome Z :=
  if DEBUG_LIBRM && (offset (inst_rm_stack s) <=? size) then
    Lockup ("librm: out of space in RM stack" ++ LF) s
  else
    let s1 := set_offset (wrap16 (offset (inst_rm_stack s) - size)) s in
    let s2 := set_mem (copy_to_real (mem s1) (segment (inst_rm_stack s1))
                                    (offset (inst_rm_stack s1)) data size) s1 in
    Done (offset (inst_rm_stack s2)) s2.

(** Deallocate space on the real-mode stack, optionally copying back data.
    [data] is a pointer; 0 is [NULL]. *)
Definition remove_from_rm_stack (data size : Z) (s : state) : state :=
  let s1 := if data =? 0 then s
            else set_mem (copy_from_real (mem s) data
                                         (segment (inst_rm_stack s))
                                         (offset (inst_rm_stack s)) size) s in
  set_offset (wrap16 (offset (inst_rm_stack s1) + size)) s1.

(** Install librm to base memory. *)
Definition install_librm (addr : Z) (s : state) : state :=
  let s1 := set_librm_base (virt_to_phys addr) s in
  let s2 := set_mem (memcpy (mem s1) addr librm librm_size) s1 in
  set_installed_librm addr s2.

(** Uninstall librm from base memory: copy the installed librm back to the
    master copy, then free but do not zero the base memory. *)
Definition uninstall_librm (s : state) : state :=
  let s1 := set_mem (memcpy (mem s) librm (installed_librm s) librm_size) s in
  if allocated_librm s1 then
    set_allocated_librm false
      (log_event (EvFree (installed_librm s1) librm_size) s1)
  else s1.

(** If librm is not installed, install librm and a real-mode stack to a
    fixed temporary location. *)
Definition librm_init (s : state) : state :=
  if librm_base s =? 0 then
    let s1 := install_librm (phys_to_virt 0x7c00) s in
    let s2 := set_segment 0x7c0 s1 in
    set_offset 0x1000 s2
  else s.

(** Called immediately after relocation. *)
Definition librm_post_reloc (s : state) : state :=
  let s1 := set_installed_librm (phys_to_virt (librm_base s)) s in
  if negb (allocated_librm s1) then
    let new_librm := alloc_base_memory (basemem_log s1) librm_size in
    let s2 := log_event (EvAlloc librm_size new_librm) s1 in
    let s3 := uninstall_librm s2 in
    let s4 := install_librm new_librm s3 in
    set_allocated_librm true s4
  else s1.

(** Wrapper for [initialise ()] when librm is being used: [es] is pointed
    at the start of the new librm. *)
Definition initialise_via_librm (ix86 : i386_all_regs) (s : state)
  : i386_all_regs * state :=
  let s1 := initialise s in
  (set_es (wrap16 (Z.shiftr (librm_base s1) 4)) ix86, s1).

(** Increment lock count of librm. *)
Definition lock_librm (s : state) : state :=
  set_inst_librm_ref_count
    (wrap ref_count_bits (inst_librm_ref_count s + 1)) s.

(** Decrement lock count of librm. *)
Definition unlock_librm (s : state) : outcome unit :=
  if DEBUG_LIBRM && (inst_librm_ref_count s =? 0) then
    Lockup ("librm: ref count gone negative" ++ LF) s
  else
    Done tt (set_inst_librm_ref_count
               (wrap ref_count_bits (inst_librm_ref_count s - 1)) s).

(** ** Sequences of calls *)

(** A run of [lock_librm] and [unlock_librm] calls. *)
Fixpoint run_ref_ops (ops : list ref_op) (s : state) : outcome unit :=
  match ops with
  | [] => Done tt s
  | Acquire :: ops' => run_ref_ops ops' (lock_librm s)
  | Release :: ops' => bind (unlock_librm s) (fun _ => run_ref_ops ops')
  end.





(** The two records of the installed location agree. *)
Definition consistent (s : state) : Prop :=
  librm_base s = virt_to_phys (installed_librm s).

End Librm.

(** ** Assumptions on the collaborators *)

(** Translating a physical address to a linear one and back gives the
    address again. *)
Definition phys_round_trip {P : Platform} : Prop :=
  forall p, is_addr p -> virt_to_phys (phys_to_virt p) = p.

(** Translating a linear address to a physical one and back gives the
    address again. *)
Definition virt_round_trip {P : Platform} : Prop :=
  forall a, is_addr a -> phys_to_virt (virt_to_phys a) = a.

(** The allocator returns 32-bit pointers. *)
Definition alloc_returns_addresses {P : Platform} : Prop :=
  forall log size, is_addr (alloc_base_memory log size).

(** ** A sample platform *)

Module Sample.

(** The image runs at physical 0x400000 and is linked at 0. *)
Definition virt_offset : Z := 0x400000.

Definition v2p (a : Z) : Z := (a + virt_offset) mod 2 ^ 32.
Definition p2v (p : Z) : Z := (p - virt_offset) mod 2 ^ 32.

(** Base memory is handed out downwards from 640 kB, one kB at a time. *)
Definition alloc (log : list event) (size : Z) : Z :=
  p2v (0xA0000 - 0x400 * (Z.of_nat (allocations log) + 1)).

Definition build (debug : bool) : Platform :=
  Build_Platform debug v2p p2v 0x10000 8 alloc 16%N.

Definition ram : memory :=
  fun a => match Byte.of_N (Z.to_N (a mod 256)) with
           | Some b => b
           | None => Byte.x00
           end.

(** Entered without librm: no physical location is known. *)
Definition cold : state :=
  mk_state ram 0x10000 false 0 (mk_segoff 0 0) 0 [].

(** Entered through a real-mode prefix that left librm at 0x7c00, with a
    stack of 0x100 bytes. *)
Definition warm : state :=
  mk_state ram (p2v 0x7c00) false 0x7c00 (mk_segoff 0x7c0 0x100) 0 [].

(** [initialise ()] as the two hooks of this file, run in turn. *)
Definition initialise (debug : bool) (s : state) : state :=
  @librm_post_reloc (build debug) (@librm_init (build debug) s).

Definition some_regs : i386_all_regs :=
  mk_regs (mk_segs 0 0 0 0 0 0) [0; 0; 0; 0].

End Sample.

(** ** Memory lemmas *)

Lemma load_bytes_length (m : memory) (a : Z) (n : nat) :
  length (load_bytes m a n) = n.
Proof. unfold load_bytes. now rewrite length_map, length_seq. Qed.

Lemma load_bytes_S (m : memory) (a : Z) (n : nat) :
  load_bytes m a (S n) = m a :: load_bytes m (a + 1) n.
Proof.
  unfold load_bytes. cbn [seq map]. rewrite Z.add_0_r. f_equal.
  rewrite <- seq_shift, map_map. apply map_ext. intros i. f_equal. lia.
Qed.

Lemma load_bytes_nth (m : memory) (a : Z) (n i : nat) (d : Byte.byte) :
  (i < n)%nat -> nth i (load_bytes m a n) d = m (a + Z.of_nat i).
Proof.
  revert a i. induction n as [|n IH]; intros a i Hi; [lia|].
  rewrite load_bytes_S. destruct i as [|i]; cbn [nth].
  - f_equal. lia.
  - rewrite IH by lia. f_equal. lia.
Qed.

Lemma store_bytes_outside (bs : list Byte.byte) :
  forall (m : memory) (a x : Z),
    x < a \/ a + Z.of_nat (length bs) <= x -> store_bytes m a bs x = m x.
Proof.
  induction bs as [|b bs IH]; intros m a x Hx; cbn [store_bytes]; [reflexivity|].
  cbn [length] in Hx. rewrite IH by lia. unfold store.
  destruct (Z.eqb_spec x a); [lia|reflexivity].
Qed.

Lemma store_bytes_inside (bs : list Byte.byte) :
  forall (m : memory) (a : Z) (i : nat) (d : Byte.byte),
    (i < length bs)%nat -> store_bytes m a bs (a + Z.of_nat i) = nth i bs d.
Proof.
  induction bs as [|b bs IH]; intros m a i d Hi; cbn [length] in Hi; [lia|].
  cbn [store_bytes]. destruct i as [|i]; cbn [nth].
  - rewrite store_bytes_outside by lia. unfold store.
    rewrite Z.add_0_r, Z.eqb_refl. reflexivity.
  - replace (a + Z.of_nat (S i)) with (a + 1 + Z.of_nat i) by lia.
    apply IH. lia.
Qed.

Lemma load_store_bytes (bs : list Byte.byte) :
  forall (m : memory) (a : Z),
    load_bytes (store_bytes m a bs) a (length bs) = bs.
Proof.
  induction bs as [|b bs IH]; intros m a; [reflexivity|].
  cbn [length store_bytes]. rewrite load_bytes_S, IH. f_equal.
  rewrite store_bytes_outside by lia. unfold store. now rewrite Z.eqb_refl.
Qed.

(** After [memcpy], the destination holds what the source held. *)
Lemma memcpy_load (m : memory) (dest src n : Z) :
  load_bytes (memcpy m dest src n) dest (Z.to_nat n)
  = load_bytes m src (Z.to_nat n).
Proof.
  unfold memcpy.
  rewrite <- (load_bytes_length m src (Z.to_nat n)) at 2.
  apply load_store_bytes.
Qed.


Lemma memcpy_at (m : memory) (dest src n i : Z) :
  0 <= i < n -> memcpy m dest src n (dest + i) = m (src + i).
Proof.
  intros Hi. unfold memcpy.
  replace i with (Z.of_nat (Z.to_nat i)) by lia.
  rewrite (store_bytes_inside _ _ _ _ Byte.x00)
    by (rewrite load_bytes_length; lia).
  apply load_bytes_nth. lia.
Qed.

(** [memcpy] writes nowhere but in the destination region. *)
Lemma memcpy_outside (m : memory) (dest src n x : Z) :
  ~ (dest <= x < dest + n) -> memcpy m dest src n x = m x.
Proof.
  intros Hx. unfold memcpy. apply store_bytes_outside.
  rewrite load_bytes_length. lia.
Qed.

(** ** The stub placement manager *)

Section Placement.

Context {P : Platform}.

Lemma uninstall_librm_mem (s : state) :
  mem (uninstall_librm s) = memcpy (mem s) librm (installed_librm s) librm_size.
Proof. unfold uninstall_librm. cbn. now destruct (allocated_librm s). Qed.

Lemma uninstall_librm_records (s : state) :
  installed_librm (uninstall_librm s) = installed_librm s
  /\ librm_base (uninstall_librm s) = librm_base s
  /\ inst_rm_stack (uninstall_librm s) = inst_rm_stack s
  /\ inst_librm_ref_count (uninstall_librm s) = inst_librm_ref_count s
  /\ allocated_librm (uninstall_librm s) = false.
Proof.
  unfold uninstall_librm. cbn.
  destruct (allocated_librm s) eqn:E; cbn; auto.
Qed.

Lemma uninstall_librm_log (s : state) :
  basemem_log (uninstall_librm s)
  = if allocated_librm s
    then basemem_log s ++ [EvFree (installed_librm s) librm_size]
    else basemem_log s.
Proof. unfold uninstall_librm. cbn. now destruct (allocated_librm s). Qed.

Lemma install_librm_consistent (addr : Z) (s : state) :
  consistent (install_librm addr s).
Proof. reflexivity. Qed.

(** C3: [uninstall_librm] copies the bytes of the installed copy back into
    the master copy and writes nowhere else, so the installed copy is left
    as it was, not zeroed, whenever it is the master copy itself or lies
    apart from it; the backing region is freed, once, exactly when
    [allocated_librm] was set, nothing is freed when it was clear, and the
    flag is clear afterwards. *)
Theorem uninstall_librm_flushes_then_frees (s : state) :
  (forall i, 0 <= i < librm_size ->
     mem (uninstall_librm s) (librm + i) = mem s (installed_librm s + i))
  /\ (forall x, ~ (librm <= x < librm + librm_size) ->
        mem (uninstall_librm s) x = mem s x)
  /\ (same_or_apart (installed_librm s) librm librm_size ->
      forall i, 0 <= i < librm_size ->
        mem (uninstall_librm s) (installed_librm s + i)
        = mem s (installed_librm s + i))
  /\ (allocated_librm s = true ->
      basemem_log (uninstall_librm s)
      = basemem_log s ++ [EvFree (installed_librm s) librm_size])
  /\ (allocated_librm s = false ->
      basemem_log (uninstall_librm s) = basemem_log s)
  /\ allocated_librm (uninstall_librm s) = false
  /\ installed_librm (uninstall_librm s) = installed_librm s
  /\ librm_base (uninstall_librm s) = librm_base s
  /\ inst_rm_stack (uninstall_librm s) = inst_rm_stack s.
Proof.
  pose proof (uninstall_librm_records s) as (Hi & Hb & Hk & _ & Ha).
  rewrite uninstall_librm_mem, uninstall_librm_log.
  repeat split; auto.
  - intros i Hr. now apply memcpy_at.
  - intros x Hx. now apply memcpy_outside.
  - intros [Heq | Hapart] i Hr.
    + rewrite Heq. now apply memcpy_at.
    + apply memcpy_outside. lia.
  - intros ->. reflexivity.
  - intros ->. reflexivity.
Qed.

(** The steps of [librm_post_reloc] when nothing is allocated yet. *)
Lemma post_reloc_steps (s : state) :
  allocated_librm s = false ->
  librm_post_reloc s
  = set_allocated_librm true
      (install_librm (alloc_base_memory (basemem_log s) librm_size)
         (uninstall_librm
            (log_event
               (EvAlloc librm_size
                        (alloc_base_memory (basemem_log s) librm_size))
               (set_installed_librm (phys_to_virt (librm_base s)) s)))).
Proof. intros Hfree. unfold librm_post_reloc. cbn. now rewrite Hfree. Qed.

(** What the first migration leaves in the records. *)
Lemma post_reloc_records (s : state) :
  allocated_librm s = false ->
  basemem_log (librm_post_reloc s)
  = basemem_log s
    ++ [EvAlloc librm_size (alloc_base_memory (basemem_log s) librm_size)]
  /\ installed_librm (librm_post_reloc s)
     = alloc_base_memory (basemem_log s) librm_size
  /\ librm_base (librm_post_reloc s)
     = virt_to_phys (alloc_base_memory (basemem_log s) librm_size)
  /\ allocated_librm (librm_post_reloc s) = true.
Proof.
  intros Hfree. rewrite (post_reloc_steps s Hfree). cbn.
  rewrite uninstall_librm_log. cbn. rewrite Hfree. auto.
Qed.

(** C1: from a state with [allocated_librm] clear, [librm_post_reloc] is,
    in this order, the re-derivation of [installed_librm] from
    [librm_base], one allocation of [librm_size] bytes, [uninstall_librm]
    (which flushes the installed copy to the master copy and frees nothing),
    [install_librm] at the new region, and the setting of
    [allocated_librm]. *)
Theorem librm_post_reloc_unallocated (s : state) :
  allocated_librm s = false ->
  let s1 := set_installed_librm (phys_to_virt (librm_base s)) s in
  let new_librm := alloc_base_memory (basemem_log s) librm_size in
  let s2 := log_event (EvAlloc librm_size new_librm) s1 in
  librm_post_reloc s
  = set_allocated_librm true (install_librm new_librm (uninstall_librm s2))
  /\ basemem_log (uninstall_librm s2)
     = basemem_log s ++ [EvAlloc librm_size new_librm]
  /\ (forall i, 0 <= i < librm_size ->
        mem (uninstall_librm s2) (librm + i)
        = mem s (phys_to_virt (librm_base s) + i))
  /\ basemem_log (librm_post_reloc s)
     = basemem_log s ++ [EvAlloc librm_size new_librm]
  /\ installed_librm (librm_post_reloc s) = new_librm
  /\ librm_base (librm_post_reloc s) = virt_to_phys new_librm
  /\ allocated_librm (librm_post_reloc s) = true
  /\ load_bytes (mem (librm_post_reloc s)) new_librm (Z.to_nat librm_size)
     = load_bytes (mem s) (phys_to_virt (librm_base s)) (Z.to_nat librm_size).
Proof.
  intros Hfree s1 new_librm s2.
  pose proof (post_reloc_steps s Hfree) as Hstep.
  fold new_librm s1 in Hstep. fold s2 in Hstep.
  destruct (post_reloc_records s Hfree) as (Hlog & Hinst & Hbase & Hflag).
  split; [exact Hstep|]. split; [|split].
  - rewrite uninstall_librm_log. cbn. rewrite Hfree. reflexivity.
  - intros i Hr. rewrite uninstall_librm_mem. cbn. now apply memcpy_at.
  - repeat split; try assumption.
    rewrite Hstep. cbn. rewrite memcpy_load, uninstall_librm_mem. cbn.
    apply memcpy_load.
Qed.

Lemma librm_post_reloc_allocated (s : state) :
  allocated_librm s = true ->
  librm_post_reloc s = set_installed_librm (phys_to_virt (librm_base s)) s.
Proof. intros H. unfold librm_post_reloc. cbn. now rewrite H. Qed.

Lemma set_installed_librm_same (s : state) (a : Z) :
  installed_librm s = a -> set_installed_librm a s = s.
Proof. intros <-. now destruct s. Qed.

(** C2: a second [librm_post_reloc] right after a first one changes
    nothing.  When the first call starts with [allocated_librm] clear, the
    two calls together make exactly one call to the allocator, an
    allocation, and free nothing; the region is the one recorded as
    installed and allocated, so that the [uninstall_librm] of the teardown
    frees it, once. *)
Theorem librm_post_reloc_twice (s : state) :
  virt_round_trip ->
  alloc_returns_addresses ->
  let s1 := librm_post_reloc s in
  let s2 := librm_post_reloc s1 in
  s2 = s1
  /\ (allocated_librm s = false ->
      let new_librm := alloc_base_memory (basemem_log s) librm_size in
      basemem_log s2 = basemem_log s ++ [EvAlloc librm_size new_librm]
      /\ allocations (basemem_log s2) = S (allocations (basemem_log s))
      /\ frees (basemem_log s2) = frees (basemem_log s)
      /\ installed_librm s2 = new_librm
      /\ allocated_librm s2 = true
      /\ basemem_log (uninstall_librm s2)
         = basemem_log s
           ++ [EvAlloc librm_size new_librm; EvFree new_librm librm_size]).
Proof.
  intros Hvirt Halloc s1 s2.
  assert (Hnoop : s2 = s1).
  { subst s2. destruct (allocated_librm s) eqn:Ha.
    - subst s1. rewrite (librm_post_reloc_allocated s Ha).
      rewrite librm_post_reloc_allocated by exact Ha.
      apply set_installed_librm_same. reflexivity.
    - destruct (post_reloc_records s Ha) as (_ & Hi & Hb & Hal).
      fold s1 in Hi, Hb, Hal.
      rewrite (librm_post_reloc_allocated s1 Hal).
      apply set_installed_librm_same.
      rewrite Hi, Hb. symmetry. apply Hvirt, Halloc. }
  split; [exact Hnoop|].
  intros Ha new_librm. rewrite Hnoop. subst s1.
  destruct (post_reloc_records s Ha) as (Hlog & Hi & _ & Hal).
  fold new_librm in Hlog, Hi.
  repeat split; auto.
  - rewrite Hlog. unfold allocations.
    rewrite filter_app, length_app. cbn. lia.
  - rewrite Hlog. unfold frees.
    rewrite filter_app, length_app. cbn. lia.
  - rewrite uninstall_librm_log, Hal, Hlog, Hi, <- app_assoc. reflexivity.
Qed.

(** C4: with no physical location known ([librm_base] is zero),
    [librm_init] installs the master copy at physical 0x7c00, the install
    putting the bytes of the master copy there, and then sets the real-mode
    stack to 0x7c0:0x1000; with a location known it changes nothing; a
    second call changes nothing after a first one. *)
Theorem librm_init_idempotent (s : state) :
  phys_round_trip ->
  (librm_base s = 0 ->
     librm_init s
     = set_offset 0x1000
         (set_segment 0x7c0 (install_librm (phys_to_virt 0x7c00) s))
     /\ load_bytes (mem (install_librm (phys_to_virt 0x7c00) s))
                   (phys_to_virt 0x7c00) (Z.to_nat librm_size)
        = load_bytes (mem s) librm (Z.to_nat librm_size)
     /\ installed_librm (librm_init s) = phys_to_virt 0x7c00
     /\ librm_base (librm_init s) = 0x7c00
     /\ inst_rm_stack (librm_init s) = mk_segoff 0x7c0 0x1000
     /\ allocated_librm (librm_init s) = allocated_librm s
     /\ basemem_log (librm_init s) = basemem_log s)
  /\ (librm_base s <> 0 -> librm_init s = s)
  /\ librm_init (librm_init s) = librm_init s.
Proof.
  intros Hphys.
  assert (Hfix : virt_to_phys (phys_to_virt 0x7c00) = 0x7c00).
  { apply Hphys. unfold is_addr. lia. }
  assert (Hknown : forall t, librm_base t <> 0 -> librm_init t = t).
  { intros t Ht. unfold librm_init.
    destruct (Z.eqb_spec (librm_base t) 0); [contradiction|reflexivity]. }
  assert (Hcold : librm_base s = 0 ->
                  librm_base (librm_init s) = 0x7c00).
  { intros H0. unfold librm_init. rewrite H0. cbn. exact Hfix. }
  split; [|split].
  - intros H0.
    assert (Hinit : librm_init s
                    = set_offset 0x1000
                        (set_segment 0x7c0
                           (install_librm (phys_to_virt 0x7c00) s))).
    { unfold librm_init. now rewrite H0. }
    split; [exact Hinit|]. split.
    + unfold install_librm. cbn [mem set_mem set_installed_librm].
      apply memcpy_load.
    + rewrite Hinit. cbn. repeat split; auto.
  - apply Hknown.
  - destruct (Z.eq_dec (librm_base s) 0) as [H0|H0].
    + apply Hknown. rewrite (Hcold H0). lia.
    + rewrite (Hknown s H0). now apply Hknown.
Qed.

End Placement.

(** ** The real-mode stack *)

Lemma wrap16_small (x : Z) : is_uint16 x -> wrap16 x = x.
Proof. intros H. apply Z.mod_small. exact H. Qed.





Section Stack.

Context {P : Platform}.

(** A push that asks for less than the offset goes through, with or
    without the check of the debug build. *)
Lemma copy_to_rm_stack_fits (data size : Z) (s : state) :
  size < offset (inst_rm_stack s) ->
  let off' := wrap16 (offset (inst_rm_stack s) - size) in
  copy_to_rm_stack data size s
  = Done off'
      (set_mem (copy_to_real (mem s) (segment (inst_rm_stack s)) off'
                             data size)
               (set_offset off' s)).
Proof.
  intros Hlt off'. unfold copy_to_rm_stack.
  destruct (Z.leb_spec (offset (inst_rm_stack s)) size) as [Hle|_]; [lia|].
  rewrite andb_false_r. reflexivity.
Qed.

Lemma remove_from_rm_stack_stack (data size : Z) (s : state) :
  inst_rm_stack (remove_from_rm_stack data size s)
  = mk_segoff (segment (inst_rm_stack s))
              (wrap16 (offset (inst_rm_stack s) + size)).
Proof.
  unfold remove_from_rm_stack. now destruct (data =? 0).
Qed.






End Stack.

(** ** The reference counter *)

Lemma acquires_cons (o : ref_op) (ops : list ref_op) :
  acquires (o :: ops) = (if is_acquire o then 1 else 0) + acquires ops.
Proof. unfold acquires. cbn [filter]. destruct (is_acquire o); cbn [length]; lia. Qed.

Lemma releases_cons (o : ref_op) (ops : list ref_op) :
  releases (o :: ops) = (if is_release o then 1 else 0) + releases ops.
Proof. unfold releases. cbn [filter]. destruct (is_release o); cbn [length]; lia. Qed.

Section RefCount.

Context {P : Platform}.

Lemma wrap_small (x : Z) :
  0 <= x < 2 ^ Z.of_N ref_count_bits -> wrap ref_count_bits x = x.
Proof. intros H. apply Z.mod_small. exact H. Qed.

Lemma lock_librm_count (s : state) :
  inst_librm_ref_count (lock_librm s)
  = wrap ref_count_bits (inst_librm_ref_count s + 1).
Proof. reflexivity. Qed.

Lemma set_inst_librm_ref_count_count (c : Z) (s : state) :
  inst_librm_ref_count (set_inst_librm_ref_count c s) = c.
Proof. reflexivity. Qed.






End RefCount.

(** ** The lifecycle hooks *)

Section Hooks.

Context {P : Platform}.

(** C9: the wrapper hands off to [initialise] and then stores in [es] the
    segment value of the installed librm, its physical base divided by 16,
    the base lying in the first megabyte, which is what real-mode code can
    address; nothing else of the register dump changes. *)
Theorem initialise_via_librm_es
        (initialise : state -> state) (ix86 : i386_all_regs) (s : state) :
  0 <= librm_base (initialise s) < 2 ^ 20 ->
  es (segs (fst (initialise_via_librm initialise ix86 s)))
  = librm_base (initialise s) / 16
  /\ Z.shiftr (librm_base (initialise s)) 4 = librm_base (initialise s) / 16
  /\ snd (initialise_via_librm initialise ix86 s) = initialise s
  /\ regs (fst (initialise_via_librm initialise ix86 s)) = regs ix86
  /\ (let r := segs (fst (initialise_via_librm initialise ix86 s)) in
      cs r = cs (segs ix86) /\ ss r = ss (segs ix86) /\ ds r = ds (segs ix86)
      /\ fs r = fs (segs ix86) /\ gs r = gs (segs ix86)).
Proof.
  intros Hlow. unfold initialise_via_librm, set_es.
  cbn [fst snd segs regs es cs ss ds fs gs].
  assert (Hshift : Z.shiftr (librm_base (initialise s)) 4
                   = librm_base (initialise s) / 16).
  { rewrite Z.shiftr_div_pow2 by lia. reflexivity. }
  repeat split; auto.
  rewrite Hshift. apply wrap16_small. unfold is_uint16.
  split.
  - apply Z.div_pos; lia.
  - apply Z.div_lt_upper_bound; lia.
Qed.

Lemma copy_to_rm_stack_records (data size : Z) (s : state) (tok : Z) (s' : state) :
  copy_to_rm_stack data size s = Done tok s' ->
  installed_librm s' = installed_librm s /\ librm_base s' = librm_base s.
Proof.
  unfold copy_to_rm_stack.
  destruct (DEBUG_LIBRM && (offset (inst_rm_stack s) <=? size));
    [discriminate|].
  intros H. inversion H. split; reflexivity.
Qed.

Lemma unlock_librm_records (s : state) (u : unit) (s' : state) :
  unlock_librm s = Done u s' ->
  installed_librm s' = installed_librm s /\ librm_base s' = librm_base s.
Proof.
  unfold unlock_librm.
  destruct (DEBUG_LIBRM && (inst_librm_ref_count s =? 0)); [discriminate|].
  intros H. inversion H. split; reflexivity.
Qed.

Lemma remove_from_rm_stack_records (data size : Z) (s : state) :
  installed_librm (remove_from_rm_stack data size s) = installed_librm s
  /\ librm_base (remove_from_rm_stack data size s) = librm_base s.
Proof. unfold remove_from_rm_stack. now destruct (data =? 0). Qed.

(** C10: [install_librm] leaves [librm_base] equal to the physical address
    of [installed_librm]; [uninstall_librm] changes neither record;
    [librm_post_reloc] makes the two agree whatever [installed_librm] was
    before; and every other function of the file keeps them in agreement. *)
Theorem base_matches_installed :
  phys_round_trip ->
  (forall addr s, consistent (install_librm addr s))
  /\ (forall s,
        installed_librm (uninstall_librm s) = installed_librm s
        /\ librm_base (uninstall_librm s) = librm_base s)
  /\ (forall s, is_addr (librm_base s) -> consistent (librm_post_reloc s))
  /\ (forall s, consistent s ->
        consistent (uninstall_librm s)
        /\ consistent (librm_init s)
        /\ consistent (lock_librm s)
        /\ (forall data size,
              consistent (remove_from_rm_stack data size s))
        /\ (forall data size tok s',
              copy_to_rm_stack data size s = Done tok s' -> consistent s')
        /\ (forall u s', unlock_librm s = Done u s' -> consistent s')).
Proof.
  intros Hphys. split; [|split; [|split]].
  - intros addr s. apply install_librm_consistent.
  - intros s. pose proof (uninstall_librm_records s) as (Hi & Hb & _).
    split; assumption.
  - intros s Hbase. unfold librm_post_reloc. cbn.
    destruct (allocated_librm s); cbn [negb].
    + unfold consistent. cbn. symmetry. apply Hphys. exact Hbase.
    + reflexivity.
  - intros s Hs. unfold consistent in *. repeat split.
    + pose proof (uninstall_librm_records s) as (Hi & Hb & _).
      now rewrite Hi, Hb.
    + unfold librm_init. destruct (librm_base s =? 0); [reflexivity|exact Hs].
    + exact Hs.
    + intros data size.
      pose proof (remove_from_rm_stack_records data size s) as (Hi & Hb).
      now rewrite Hi, Hb.
    + intros data size tok s' Hpush.
      destruct (copy_to_rm_stack_records _ _ _ _ _ Hpush) as (Hi & Hb).
      now rewrite Hi, Hb.
    + intros u s' Hun.
      destruct (unlock_librm_records _ _ _ Hun) as (Hi & Hb).
      now rewrite Hi, Hb.
Qed.

End Hooks.

(** ** The sample platform meets the assumptions *)

Lemma sample_phys_round_trip (debug : bool) :
  @phys_round_trip (Sample.build debug).
Proof.
  intros p Hp. cbn. unfold Sample.v2p, Sample.p2v, is_addr in *.
  rewrite Zplus_mod_idemp_l.
  replace (p - Sample.virt_offset + Sample.virt_offset) with p by lia.
  apply Z.mod_small. exact Hp.
Qed.

Lemma sample_virt_round_trip (debug : bool) :
  @virt_round_trip (Sample.build debug).
Proof.
  intros a Ha. cbn. unfold Sample.v2p, Sample.p2v, is_addr in *.
  rewrite Zminus_mod_idemp_l.
  replace (a + Sample.virt_offset - Sample.virt_offset) with a by lia.
  apply Z.mod_small. exact Ha.
Qed.

Lemma sample_alloc_returns_addresses (debug : bool) :
  @alloc_returns_addresses (Sample.build debug).
Proof.
  intros log size. cbn. unfold Sample.alloc, Sample.p2v, is_addr.
  apply Z.mod_pos_bound. lia.
Qed.

(** ** The theorems at work on the sample platform *)

(** The first migration of a stub left at 0x7c00 by a real-mode prefix
    makes one allocation. *)
Lemma librm_post_reloc_unallocated_witness :
  allocated_librm Sample.warm = false
  /\ basemem_log (@librm_post_reloc (Sample.build true) Sample.warm)
     = [EvAlloc 8 0xFFC9FC00]
  /\ librm_base (@librm_post_reloc (Sample.build true) Sample.warm)
     = 0x9FC00.
Proof.
  pose proof (@librm_post_reloc_unallocated (Sample.build true) Sample.warm
                eq_refl) as H.
  cbv zeta in H. destruct H as (_ & _ & _ & Hlog & _ & Hbase & _).
  split; [reflexivity|]. split; [exact Hlog|exact Hbase].
Defined.

(** Migrating twice allocates once. *)
Lemma librm_post_reloc_twice_witness :
  @librm_post_reloc (Sample.build true)
    (@librm_post_reloc (Sample.build true) Sample.warm)
  = @librm_post_reloc (Sample.build true) Sample.warm
  /\ allocations
       (basemem_log
          (@librm_post_reloc (Sample.build true)
             (@librm_post_reloc (Sample.build true) Sample.warm)))
     = 1%nat.
Proof.
  pose proof (@librm_post_reloc_twice (Sample.build true) Sample.warm
                (sample_virt_round_trip true)
                (sample_alloc_returns_addresses true)) as H.
  cbv zeta in H. destruct H as (Hnoop & Hfirst).
  split; [exact Hnoop|].
  destruct (Hfirst eq_refl) as (_ & Hcount & _). exact Hcount.
Defined.

(** A cold start installs at 0x7c00 with the stack at 0x7c0:0x1000. *)
Lemma librm_init_idempotent_witness :
  librm_base (@librm_init (Sample.build true) Sample.cold) = 0x7c00
  /\ inst_rm_stack (@librm_init (Sample.build true) Sample.cold)
     = mk_segoff 0x7c0 0x1000
  /\ @librm_init (Sample.build true)
       (@librm_init (Sample.build true) Sample.cold)
     = @librm_init (Sample.build true) Sample.cold.
Proof.
  destruct (@librm_init_idempotent (Sample.build true) Sample.cold
              (sample_phys_round_trip true)) as (Hcold & _ & Hidem).
  destruct (Hcold eq_refl) as (_ & _ & _ & Hbase & Hstack & _).
  split; [exact Hbase|]. split; [exact Hstack|exact Hidem].
Defined.







(** After the two hooks have run from a cold start, [es] is 0x9fc0. *)
Lemma initialise_via_librm_es_witness :
  es (segs (fst (@initialise_via_librm (Sample.initialise true)
                   Sample.some_regs Sample.cold)))
  = 0x9fc0.
Proof.
  assert (Hlow : 0 <= librm_base (Sample.initialise true Sample.cold)
                 < 2 ^ 20)
    by (vm_compute; split; [discriminate|reflexivity]).
  destruct (@initialise_via_librm_es (Sample.initialise true)
              Sample.some_regs Sample.cold Hlow) as (Hes & _).
  exact Hes.
Defined.

(** The migration of the stub left at 0x7c00 ends with the two records in
    agreement. *)
Lemma base_matches_installed_witness :
  @consistent (Sample.build true)
    (@librm_post_reloc (Sample.build true) Sample.warm).
Proof.
  destruct (@base_matches_installed (Sample.build true)
              (sample_phys_round_trip true)) as (_ & _ & Hreloc & _).
  apply Hreloc. unfold is_addr. cbn. lia.
Defined.

(** ** More on memory *)


(** Copying a region onto itself changes no byte. *)
Lemma memcpy_self (m : memory) (a n x : Z) : memcpy m a a n x = m x.
Proof.
  destruct (Z_le_dec a x) as [Hlo|Hlo].
  - destruct (Z_lt_dec x (a + n)) as [Hhi|Hhi].
    + replace x with (a + (x - a)) by lia. apply memcpy_at. lia.
    + apply memcpy_outside. lia.
  - apply memcpy_outside. lia.
Qed.

(** ** More on the stub placement manager *)

Section PlacementMore.

Context {P : Platform}.

(** X1: [install_librm] puts the bytes of the master copy at the address,
    writes nowhere else, records the address and its physical form, and
    leaves the allocation flag and the allocator alone. *)
Theorem install_librm_copies_master (addr : Z) (s : state) :
  load_bytes (mem (install_librm addr s)) addr (Z.to_nat librm_size)
  = load_bytes (mem s) librm (Z.to_nat librm_size)
  /\ (forall x, ~ (addr <= x < addr + librm_size) ->
        mem (install_librm addr s) x = mem s x)
  /\ installed_librm (install_librm addr s) = addr
  /\ librm_base (install_librm addr s) = virt_to_phys addr
  /\ allocated_librm (install_librm addr s) = allocated_librm s
  /\ basemem_log (install_librm addr s) = basemem_log s.
Proof.
  unfold install_librm. cbn. repeat split.
  - apply memcpy_load.
  - intros x Hx. now apply memcpy_outside.
Qed.

(** X2: while [installed_librm] still points at the master copy, as it does
    at startup, [uninstall_librm] changes no byte of memory; with nothing
    allocated it changes no record either. *)
Theorem uninstall_librm_in_place (s : state) :
  installed_librm s = librm ->
  (forall x, mem (uninstall_librm s) x = mem s x)
  /\ (allocated_librm s = false ->
      installed_librm (uninstall_librm s) = installed_librm s
      /\ allocated_librm (uninstall_librm s) = allocated_librm s
      /\ librm_base (uninstall_librm s) = librm_base s
      /\ inst_rm_stack (uninstall_librm s) = inst_rm_stack s
      /\ inst_librm_ref_count (uninstall_librm s) = inst_librm_ref_count s
      /\ basemem_log (uninstall_librm s) = basemem_log s).
Proof.
  intros Hhere. split.
  - intros x. rewrite uninstall_librm_mem, Hhere. apply memcpy_self.
  - intros Hfree.
    pose proof (uninstall_librm_records s) as (Hi & Hb & Hk & Hc & Ha).
    rewrite uninstall_librm_log, Hfree. repeat split; assumption.
Qed.

(** X3: a second [uninstall_librm] frees nothing: whatever the state, the
    two calls make at most one call to the allocator, and when the installed
    copy is the master copy or lies apart from it the second call changes
    no byte. *)
Theorem uninstall_librm_twice_frees_once (s : state) :
  basemem_log (uninstall_librm (uninstall_librm s))
  = basemem_log (uninstall_librm s)
  /\ (frees (basemem_log (uninstall_librm (uninstall_librm s)))
      <= S (frees (basemem_log s)))%nat
  /\ allocations (basemem_log (uninstall_librm (uninstall_librm s)))
     = allocations (basemem_log s)
  /\ (same_or_apart (installed_librm s) librm librm_size ->
      forall x,
        mem (uninstall_librm (uninstall_librm s)) x
        = mem (uninstall_librm s) x).
Proof.
  pose proof (uninstall_librm_records s) as (Hi & _ & _ & _ & Ha).
  assert (Hlog2 : basemem_log (uninstall_librm (uninstall_librm s))
                  = basemem_log (uninstall_librm s)).
  { rewrite (uninstall_librm_log (uninstall_librm s)), Ha. reflexivity. }
  split; [exact Hlog2|]. rewrite Hlog2, uninstall_librm_log.
  split; [|split].
  - destruct (allocated_librm s); [|lia].
    unfold frees. rewrite filter_app, length_app. cbn. lia.
  - destruct (allocated_librm s); [|reflexivity].
    unfold allocations. rewrite filter_app, length_app. cbn. lia.
  - intros Hsep x.
    rewrite (uninstall_librm_mem (uninstall_librm s)), Hi.
    rewrite uninstall_librm_mem.
    destruct (Z_le_dec librm x) as [Hlo|Hlo];
      [destruct (Z_lt_dec x (librm + librm_size)) as [Hhi|Hhi]|].
    + replace x with (librm + (x - librm)) by lia.
      rewrite !memcpy_at by lia.
      destruct Hsep as [Heq|Hapart].
      * rewrite Heq. apply memcpy_at. lia.
      * apply memcpy_outside. lia.
    + rewrite !memcpy_outside by lia. reflexivity.
    + rewrite !memcpy_outside by lia. reflexivity.
Qed.

(** X4: the migration writes only into the master copy and into the new
    region, so a copy at the old place that lies apart from both is still
    there afterwards, byte for byte. *)
Theorem librm_post_reloc_leaves_old_copy (s : state) :
  allocated_librm s = false ->
  let new_librm := alloc_base_memory (basemem_log s) librm_size in
  let old_librm := phys_to_virt (librm_base s) in
  (forall x,
     ~ (librm <= x < librm + librm_size) ->
     ~ (new_librm <= x < new_librm + librm_size) ->
     mem (librm_post_reloc s) x = mem s x)
  /\ (old_librm + librm_size <= librm \/ librm + librm_size <= old_librm ->
      old_librm + librm_size <= new_librm
      \/ new_librm + librm_size <= old_librm ->
      forall i, 0 <= i < librm_size ->
        mem (librm_post_reloc s) (old_librm + i) = mem s (old_librm + i)).
Proof.
  intros Hfree new_librm old_librm.
  assert (Hframe : forall x,
            ~ (librm <= x < librm + librm_size) ->
            ~ (new_librm <= x < new_librm + librm_size) ->
            mem (librm_post_reloc s) x = mem s x).
  { intros x Hmaster Hnew. rewrite (post_reloc_steps s Hfree).
    fold new_librm. cbn.
    rewrite memcpy_outside by exact Hnew.
    rewrite uninstall_librm_mem. cbn. now apply memcpy_outside. }
  split; [exact Hframe|].
  intros Hmaster Hnew i Hi. apply Hframe; lia.
Qed.

Lemma post_reloc_noop_after (s : state) :
  virt_round_trip ->
  alloc_returns_addresses ->
  librm_post_reloc (librm_post_reloc s) = librm_post_reloc s.
Proof.
  intros Hvirt Halloc. destruct (allocated_librm s) eqn:Ha.
  - rewrite (librm_post_reloc_allocated s Ha).
    rewrite librm_post_reloc_allocated by exact Ha.
    apply set_installed_librm_same. reflexivity.
  - destruct (post_reloc_records s Ha) as (_ & Hi & Hb & Hal).
    rewrite (librm_post_reloc_allocated _ Hal).
    apply set_installed_librm_same.
    rewrite Hi, Hb. symmetry. apply Hvirt, Halloc.
Qed.

(** X5: however many times [librm_post_reloc] is run in a row, the state is
    the one the first run left: at most one allocation is ever made. *)
Theorem librm_post_reloc_repeated (n : nat) (s : state) :
  virt_round_trip ->
  alloc_returns_addresses ->
  Nat.iter (S n) librm_post_reloc s = librm_post_reloc s
  /\ (allocations (basemem_log (Nat.iter (S n) librm_post_reloc s))
      <= S (allocations (basemem_log s)))%nat
  /\ frees (basemem_log (Nat.iter (S n) librm_post_reloc s))
     = frees (basemem_log s).
Proof.
  intros Hvirt Halloc.
  assert (Hiter : Nat.iter (S n) librm_post_reloc s = librm_post_reloc s).
  { induction n as [|n IH]; [reflexivity|].
    change (Nat.iter (S (S n)) librm_post_reloc s)
      with (librm_post_reloc (Nat.iter (S n) librm_post_reloc s)).
    rewrite IH. now apply post_reloc_noop_after. }
  split; [exact Hiter|]. rewrite Hiter.
  destruct (allocated_librm s) eqn:Ha.
  - rewrite (librm_post_reloc_allocated s Ha).
    cbn [basemem_log set_installed_librm]. split; [lia|reflexivity].
  - destruct (post_reloc_records s Ha) as (Hlog & _).
    rewrite Hlog. unfold allocations, frees.
    rewrite !filter_app, !length_app. cbn [filter is_alloc is_free length].
    split; lia.
Qed.

(** X6: a cold start run to the end.  [librm_init], [librm_post_reloc] and
    the [uninstall_librm] of the exit path make two calls to the allocator:
    one allocation of [librm_size] bytes and the free of that region with
    that size.  The flush and the install hand the bytes of the copy that
    [librm_init] left at 0x7c00 on to the allocated copy, and the exit path
    hands them on to the master copy; nothing stays allocated. *)
Theorem cold_start_to_exit (s : state) :
  phys_round_trip ->
  librm_base s = 0 ->
  allocated_librm s = false ->
  let s1 := librm_init s in
  let s2 := librm_post_reloc s1 in
  let s3 := uninstall_librm s2 in
  let new_librm := alloc_base_memory (basemem_log s) librm_size in
  basemem_log s3
  = basemem_log s
    ++ [EvAlloc librm_size new_librm; EvFree new_librm librm_size]
  /\ allocated_librm s2 = true
  /\ allocated_librm s3 = false
  /\ installed_librm s2 = new_librm
  /\ load_bytes (mem s2) new_librm (Z.to_nat librm_size)
     = load_bytes (mem s1) (phys_to_virt 0x7c00) (Z.to_nat librm_size)
  /\ load_bytes (mem s3) librm (Z.to_nat librm_size)
     = load_bytes (mem s1) (phys_to_virt 0x7c00) (Z.to_nat librm_size).
Proof.
  intros Hphys Hcold Hfree s1 s2 s3 new_librm.
  assert (Hfix : virt_to_phys (phys_to_virt 0x7c00) = 0x7c00).
  { apply Hphys. unfold is_addr. lia. }
  assert (Hs1 : s1 = set_offset 0x1000
                       (set_segment 0x7c0
                          (install_librm (phys_to_virt 0x7c00) s))).
  { subst s1. unfold librm_init. now rewrite Hcold. }
  assert (Hfree1 : allocated_librm s1 = false) by (now rewrite Hs1).
  assert (Hlog1 : basemem_log s1 = basemem_log s) by (now rewrite Hs1).
  assert (Hbase1 : librm_base s1 = 0x7c00) by (rewrite Hs1; exact Hfix).
  destruct (post_reloc_records s1 Hfree1) as (Hlog2 & Hi2 & _ & Ha2).
  fold s2 in Hlog2, Hi2, Ha2. rewrite Hlog1 in Hlog2, Hi2.
  fold new_librm in Hlog2, Hi2.
  assert (Hmem2 : load_bytes (mem s2) new_librm (Z.to_nat librm_size)
                  = load_bytes (mem s1) (phys_to_virt 0x7c00)
                               (Z.to_nat librm_size)).
  { subst s2. rewrite (post_reloc_steps s1 Hfree1). rewrite Hlog1.
    fold new_librm. cbn [mem set_allocated_librm install_librm set_mem
                         set_installed_librm set_librm_base].
    rewrite memcpy_load, uninstall_librm_mem.
    cbn [mem installed_librm log_event set_installed_librm].
    rewrite memcpy_load, Hbase1. reflexivity. }
  pose proof (uninstall_librm_records s2) as (_ & _ & _ & _ & Ha3).
  fold s3 in Ha3.
  repeat split.
  - subst s3. rewrite uninstall_librm_log, Ha2, Hlog2, Hi2, <- app_assoc.
    reflexivity.
  - exact Ha2.
  - exact Ha3.
  - exact Hi2.
  - exact Hmem2.
  - subst s3. rewrite uninstall_librm_mem, memcpy_load, Hi2. exact Hmem2.
Qed.

End PlacementMore.

(** ** More on the real-mode stack *)


Section StackMore.

Context {P : Platform}.


Lemma remove_from_rm_stack_null (size : Z) (s : state) :
  remove_from_rm_stack 0 size s
  = set_offset (wrap16 (offset (inst_rm_stack s) + size)) s.
Proof. reflexivity. Qed.

Lemma state_eta (s : state) :
  set_mem (mem s) (set_offset (offset (inst_rm_stack s)) s) = s.
Proof. destruct s as [m i a b [seg off] c l]. reflexivity. Qed.

(** X7: a push of no bytes.  With room on the stack it returns the current
    offset and changes nothing; on a stack whose offset is zero the debug
    build locks up all the same, the build without the check does not.  A
    pop of no bytes changes nothing. *)
Theorem empty_push_and_pop (data : Z) (s : state) :
  is_uint16 (offset (inst_rm_stack s)) ->
  (0 < offset (inst_rm_stack s) ->
   copy_to_rm_stack data 0 s = Done (offset (inst_rm_stack s)) s)
  /\ (DEBUG_LIBRM = true -> offset (inst_rm_stack s) = 0 ->
      is_lockup (copy_to_rm_stack data 0 s) = true)
  /\ (DEBUG_LIBRM = false ->
      copy_to_rm_stack data 0 s = Done (offset (inst_rm_stack s)) s)
  /\ remove_from_rm_stack data 0 s = s.
Proof.
  intros Hoff.
  assert (Hsame : set_mem (copy_to_real (mem s) (segment (inst_rm_stack s))
                             (wrap16 (offset (inst_rm_stack s) - 0)) data 0)
                    (set_offset (wrap16 (offset (inst_rm_stack s) - 0)) s)
                  = s).
  { rewrite Z.sub_0_r, (wrap16_small _ Hoff).
    unfold copy_to_real, memcpy. cbn [Z.to_nat load_bytes seq map store_bytes].
    apply state_eta. }
  split; [|split; [|split]].
  - intros Hpos. rewrite (copy_to_rm_stack_fits data 0 s Hpos). cbv zeta.
    rewrite Hsame, Z.sub_0_r, (wrap16_small _ Hoff). reflexivity.
  - intros Hdebug H0. unfold copy_to_rm_stack. rewrite Hdebug, H0.
    reflexivity.
  - intros Hrelease. unfold copy_to_rm_stack. rewrite Hrelease.
    cbn [andb inst_rm_stack set_offset set_inst_rm_stack set_mem mem
         segment offset].
    rewrite Hsame, Z.sub_0_r, (wrap16_small _ Hoff). reflexivity.
  - unfold remove_from_rm_stack.
    destruct (data =? 0).
    + rewrite Z.add_0_r, (wrap16_small _ Hoff).
      destruct s as [m i a b [seg off] c l]. reflexivity.
    + cbn [inst_rm_stack set_mem]. rewrite Z.add_0_r, (wrap16_small _ Hoff).
      unfold copy_from_real, memcpy.
      cbn [Z.to_nat load_bytes seq map store_bytes].
      destruct s as [m i a b [seg off] c l]. reflexivity.
Qed.


(** X9: a pop writes nowhere but in its buffer, if it has one, and in the
    installed image, which holds the stack bookkeeping; the offset goes up
    by the size modulo 2^16, unchecked, when the pop has no buffer or a
    buffer apart from the installed image; the pointer to the image, the
    allocation flag, the recorded base and the allocator are as before. *)
Theorem remove_from_rm_stack_footprint (data size : Z) (s : state) :
  (data = 0 ->
   forall x, ~ (installed_librm s <= x < installed_librm s + librm_size) ->
     mem (remove_from_rm_stack data size s) x = mem s x)
  /\ (forall x,
        ~ (data <= x < data + size) ->
        ~ (installed_librm s <= x < installed_librm s + librm_size) ->
        mem (remove_from_rm_stack data size s) x = mem s x)
  /\ (data = 0
      \/ data + size <= installed_librm s
      \/ installed_librm s + librm_size <= data ->
      inst_rm_stack (remove_from_rm_stack data size s)
      = mk_segoff (segment (inst_rm_stack s))
                  (wrap16 (offset (inst_rm_stack s) + size)))
  /\ installed_librm (remove_from_rm_stack data size s) = installed_librm s
  /\ allocated_librm (remove_from_rm_stack data size s) = allocated_librm s
  /\ librm_base (remove_from_rm_stack data size s) = librm_base s
  /\ basemem_log (remove_from_rm_stack data size s) = basemem_log s.
Proof.
  split; [|split; [|split]].
  - intros -> x _. reflexivity.
  - intros x Hx _. unfold remove_from_rm_stack.
    destruct (data =? 0); [reflexivity|].
    cbn [mem set_offset set_inst_rm_stack set_mem].
    unfold copy_from_real. now apply memcpy_outside.
  - intros _. apply remove_from_rm_stack_stack.
  - unfold remove_from_rm_stack. destruct (data =? 0); repeat split.
Qed.



End StackMore.

(** ** More on the reference counter *)

Section RefCountMore.

Context {P : Platform}.

Lemma wrap_range (x : Z) :
  0 <= wrap ref_count_bits x < 2 ^ Z.of_N ref_count_bits.
Proof. unfold wrap. apply Z.mod_pos_bound. apply Z.pow_pos_nonneg; lia. Qed.

Lemma set_inst_librm_ref_count_back (s : state) (c : Z) :
  set_inst_librm_ref_count (inst_librm_ref_count s)
    (set_inst_librm_ref_count c s) = s.
Proof. now destruct s. Qed.

(** X12: an acquire and the release that follows give the state back, in
    either build, as long as the acquire does not wrap the counter.  At the
    largest count the acquire wraps it to zero: the debug build then locks
    up on the release, the build without the check still gives the state
    back. *)
Theorem lock_then_unlock (s : state) :
  0 <= inst_librm_ref_count s < 2 ^ Z.of_N ref_count_bits ->
  (inst_librm_ref_count s + 1 < 2 ^ Z.of_N ref_count_bits ->
   unlock_librm (lock_librm s) = Done tt s)
  /\ (DEBUG_LIBRM = false -> unlock_librm (lock_librm s) = Done tt s)
  /\ (DEBUG_LIBRM = true ->
      inst_librm_ref_count s + 1 = 2 ^ Z.of_N ref_count_bits ->
      is_lockup (unlock_librm (lock_librm s)) = true).
Proof.
  intros Hc.
  assert (Hback : wrap ref_count_bits
                    (wrap ref_count_bits (inst_librm_ref_count s + 1) - 1)
                  = inst_librm_ref_count s).
  { unfold wrap. rewrite Zminus_mod_idemp_l.
    replace (inst_librm_ref_count s + 1 - 1) with (inst_librm_ref_count s)
      by lia.
    apply Z.mod_small. exact Hc. }
  assert (Hdone : Done tt
                    (set_inst_librm_ref_count
                       (wrap ref_count_bits
                          (inst_librm_ref_count (lock_librm s) - 1))
                       (lock_librm s))
                  = Done tt s).
  { rewrite lock_librm_count, Hback. unfold lock_librm.
    now rewrite set_inst_librm_ref_count_back. }
  split; [|split].
  - intros Hroom. unfold unlock_librm. rewrite lock_librm_count at 1.
    rewrite wrap_small by lia.
    destruct (Z.eqb_spec (inst_librm_ref_count s + 1) 0); [lia|].
    rewrite andb_false_r. exact Hdone.
  - intros Hrelease. unfold unlock_librm. rewrite Hrelease. exact Hdone.
  - intros Hdebug Htop. unfold unlock_librm.
    rewrite Hdebug, lock_librm_count, Htop. unfold wrap.
    rewrite Z_mod_same_full. reflexivity.
Qed.

(** X13: in a build without [DEBUG_LIBRM] no run of acquires and releases
    locks up, in whatever order they come: it returns with the count moved
    by the acquires less the releases, modulo 2^[ref_count_bits]. *)
Theorem run_ref_ops_unchecked (ops : list ref_op) (s : state) :
  DEBUG_LIBRM = false ->
  0 <= inst_librm_ref_count s < 2 ^ Z.of_N ref_count_bits ->
  exists s',
    run_ref_ops ops s = Done tt s'
    /\ inst_librm_ref_count s'
       = wrap ref_count_bits
           (inst_librm_ref_count s + acquires ops - releases ops).
Proof.
  intros Hrelease. revert s.
  induction ops as [|o ops IH]; intros s Hc.
  - exists s. split; [reflexivity|].
    unfold acquires, releases. cbn [filter length Z.of_nat].
    rewrite Z.add_0_r, Z.sub_0_r, wrap_small by exact Hc. reflexivity.
  - rewrite acquires_cons, releases_cons.
    destruct o; cbn [is_acquire is_release run_ref_ops].
    + destruct (IH (lock_librm s)) as (s' & Hrun & Hcount).
      { rewrite lock_librm_count. apply wrap_range. }
      exists s'. split; [exact Hrun|]. rewrite Hcount, lock_librm_count.
      unfold wrap.
      rewrite <- Z.add_sub_assoc, Zplus_mod_idemp_l. f_equal. lia.
    + unfold unlock_librm. rewrite Hrelease. cbn [andb bind].
      match goal with |- context [run_ref_ops ops ?t] => set (s1 := t) end.
      destruct (IH s1) as (s' & Hrun & Hcount).
      { subst s1. rewrite set_inst_librm_ref_count_count. apply wrap_range. }
      exists s'. split; [exact Hrun|]. rewrite Hcount. subst s1.
      rewrite set_inst_librm_ref_count_count. unfold wrap.
      rewrite <- Z.add_sub_assoc, Zplus_mod_idemp_l. f_equal. lia.
Qed.

End RefCountMore.

(** ** More on the hooks *)

Lemma segment_of_low_base (b : Z) :
  0 <= b < 2 ^ 20 -> wrap16 (Z.shiftr b 4) = b / 16.
Proof.
  intros Hb. rewrite Z.shiftr_div_pow2 by lia.
  change (2 ^ 4) with 16. apply wrap16_small. unfold is_uint16. split.
  - apply Z.div_pos; lia.
  - apply Z.div_lt_upper_bound; lia.
Qed.

Section HooksMore.

Context {P : Platform}.

(** X14: es:0000 is the start of the new librm, as the wrapper means it to
    be, exactly when the physical base of librm is a multiple of 16; in any
    case es:0000 lies at most 15 bytes below the base. *)
Theorem es_points_at_aligned_base
        (initialise : state -> state) (ix86 : i386_all_regs) (s : state) :
  0 <= librm_base (initialise s) < 2 ^ 20 ->
  let e := es (segs (fst (initialise_via_librm initialise ix86 s))) in
  16 * e <= librm_base (initialise s) < 16 * e + 16
  /\ (16 * e = librm_base (initialise s)
      <-> librm_base (initialise s) mod 16 = 0).
Proof.
  intros Hlow e.
  assert (He : e = librm_base (initialise s) / 16).
  { subst e. unfold initialise_via_librm, set_es.
    cbn [fst segs es]. now apply segment_of_low_base. }
  pose proof (Z.div_mod (librm_base (initialise s)) 16 ltac:(lia)) as Hdm.
  pose proof (Z.mod_pos_bound (librm_base (initialise s)) 16 ltac:(lia))
    as Hrem.
  rewrite He. split; [lia|]. split; lia.
Qed.

(** X15: the fallback stack of [librm_init] lives in the segment that
    starts where librm is installed, 0x7c0:0 being physical 0x7c00.  With
    that segment in one piece in linear memory, a push on the fresh stack
    that leaves the offset at [librm_size] or above returns, and the slot
    that receives its data begins at or after the end of the installed
    librm: the data does not land in the stub. *)
Theorem fallback_stack_slot_above_librm (data size : Z) (s : state) :
  librm_base s = 0 ->
  (forall k, 0 <= k <= 0x1000 ->
     phys_to_virt (0x7c00 + k) = phys_to_virt 0x7c00 + k) ->
  0 <= size ->
  0 < librm_size <= 0x1000 - size ->
  exists s',
    copy_to_rm_stack data size (librm_init s) = Done (0x1000 - size) s'
    /\ installed_librm s' = phys_to_virt 0x7c00
    /\ inst_rm_stack s' = mk_segoff 0x7c0 (0x1000 - size)
    /\ installed_librm s' + librm_size
       <= real_to_virt (segment (inst_rm_stack s'))
                       (offset (inst_rm_stack s'))
    /\ load_bytes (mem s')
                  (real_to_virt (segment (inst_rm_stack s'))
                                (offset (inst_rm_stack s')))
                  (Z.to_nat size)
       = load_bytes (mem (librm_init s)) data (Z.to_nat size).
Proof.
  intros Hcold Hflat Hsize Hroom.
  assert (Hs0 : librm_init s
                = set_offset 0x1000
                    (set_segment 0x7c0
                       (install_librm (phys_to_virt 0x7c00) s))).
  { unfold librm_init. now rewrite Hcold. }
  set (s0 := librm_init s) in *.
  assert (Hoff : offset (inst_rm_stack s0) = 0x1000) by (now rewrite Hs0).
  assert (Hseg : segment (inst_rm_stack s0) = 0x7c0) by (now rewrite Hs0).
  assert (Hinst : installed_librm s0 = phys_to_virt 0x7c00)
    by (now rewrite Hs0).
  pose proof (copy_to_rm_stack_fits data size s0) as Hpush.
  cbv zeta in Hpush. rewrite Hoff, Hseg in Hpush.
  rewrite wrap16_small in Hpush by (unfold is_uint16; lia).
  specialize (Hpush ltac:(lia)).
  eexists. split; [exact Hpush|].
  cbn [installed_librm mem set_mem set_offset set_inst_rm_stack
       inst_rm_stack segment offset].
  rewrite Hseg, Hinst.
  split; [reflexivity|]. split; [reflexivity|]. split.
  - unfold real_to_virt.
    replace (0x7c0 * 16 + (0x1000 - size)) with (0x7c00 + (0x1000 - size))
      by lia.
    rewrite Hflat by lia. lia.
  - unfold copy_to_real. apply memcpy_load.
Qed.

End HooksMore.

Section Boundaries.

Context {P : Platform}.


End Boundaries.

(** ** The further theorems at work on the sample platform *)

Lemma sample_p2v_low (p : Z) :
  0 <= p < 0x400000 -> Sample.p2v p = p + 0xFFC00000.
Proof.
  intros Hp. unfold Sample.p2v, Sample.virt_offset.
  rewrite <- (Z.mod_add _ 1) by lia.
  replace (p - 0x400000 + 1 * 2 ^ 32) with (p + 0xFFC00000) by lia.
  apply Z.mod_small. lia.
Qed.

(** At startup the exit hook leaves memory alone. *)
Lemma uninstall_librm_in_place_witness :
  mem (@uninstall_librm (Sample.build true) Sample.cold) 0x10003
  = mem Sample.cold 0x10003.
Proof.
  destruct (@uninstall_librm_in_place (Sample.build true) Sample.cold
              eq_refl) as (Hmem & _).
  exact (Hmem 0x10003).
Defined.

(** The copy at 0x7c00 survives the migration. *)
Lemma librm_post_reloc_leaves_old_copy_witness :
  mem (@librm_post_reloc (Sample.build true) Sample.warm)
      (Sample.p2v 0x7c00)
  = mem Sample.warm (Sample.p2v 0x7c00).
Proof.
  pose proof (@librm_post_reloc_leaves_old_copy (Sample.build true)
                Sample.warm eq_refl) as H.
  cbv zeta in H. destruct H as (Hmem & _).
  apply Hmem; vm_compute; intros [H1 H2]; first [now apply H1 | discriminate].
Defined.

(** Five migrations in a row allocate once. *)
Lemma librm_post_reloc_repeated_witness :
  Nat.iter 5 (@librm_post_reloc (Sample.build true)) Sample.warm
  = @librm_post_reloc (Sample.build true) Sample.warm.
Proof.
  exact (proj1 (@librm_post_reloc_repeated (Sample.build true) 4 Sample.warm
                  (sample_virt_round_trip true)
                  (sample_alloc_returns_addresses true))).
Defined.

(** A cold start on the sample platform, run to the end. *)
Lemma cold_start_to_exit_witness :
  basemem_log
    (@uninstall_librm (Sample.build true)
       (@librm_post_reloc (Sample.build true)
          (@librm_init (Sample.build true) Sample.cold)))
  = [EvAlloc 8 0xFFC9FC00; EvFree 0xFFC9FC00 8].
Proof.
  pose proof (@cold_start_to_exit (Sample.build true) Sample.cold
                (sample_phys_round_trip true) eq_refl eq_refl) as H.
  cbv zeta in H. destruct H as (Hlog & _). exact Hlog.
Defined.

(** An empty push on the warm stack. *)
Lemma empty_push_and_pop_witness :
  @copy_to_rm_stack (Sample.build true) 0x2000 0 Sample.warm
  = Done 0x100 Sample.warm.
Proof.
  assert (Hoff : is_uint16 (offset (inst_rm_stack Sample.warm)))
    by (unfold is_uint16; cbn; lia).
  destruct (@empty_push_and_pop (Sample.build true) 0x2000 Sample.warm Hoff)
    as (Hpush & _).
  apply Hpush. cbn. lia.
Defined.




(** An acquire and a release from a count of zero. *)
Lemma lock_then_unlock_witness :
  @unlock_librm (Sample.build true) (@lock_librm (Sample.build true)
                                       Sample.cold)
  = Done tt Sample.cold.
Proof.
  assert (Hc : 0 <= inst_librm_ref_count Sample.cold
               < 2 ^ Z.of_N (@ref_count_bits (Sample.build true)))
    by (cbn; lia).
  destruct (@lock_then_unlock (Sample.build true) Sample.cold Hc)
    as (Hroom & _).
  apply Hroom. cbn. lia.
Defined.

(** Without the check, two releases and an acquire leave 2^16 - 1. *)
Lemma run_ref_ops_unchecked_witness :
  exists s',
    @run_ref_ops (Sample.build false) [Release; Release; Acquire] Sample.cold
    = Done tt s'
    /\ inst_librm_ref_count s' = 65535.
Proof.
  assert (Hc : 0 <= inst_librm_ref_count Sample.cold
               < 2 ^ Z.of_N (@ref_count_bits (Sample.build false)))
    by (cbn; lia).
  destruct (@run_ref_ops_unchecked (Sample.build false)
              [Release; Release; Acquire] Sample.cold eq_refl Hc)
    as (s' & Hrun & Hcount).
  exists s'. split; [exact Hrun|exact Hcount].
Defined.

(** On the sample platform the allocator hands out kB-aligned memory and
    es:0000 is the start of librm. *)
Lemma es_points_at_aligned_base_witness :
  16 * es (segs (fst (@initialise_via_librm (Sample.initialise true)
                        Sample.some_regs Sample.cold)))
  = librm_base (Sample.initialise true Sample.cold).
Proof.
  assert (Hlow : 0 <= librm_base (Sample.initialise true Sample.cold)
                 < 2 ^ 20)
    by (vm_compute; split; [discriminate|reflexivity]).
  pose proof (@es_points_at_aligned_base (Sample.initialise true)
                Sample.some_regs Sample.cold Hlow) as H.
  cbv zeta in H. destruct H as (_ & Hiff).
  apply Hiff. reflexivity.
Defined.

(** A push of 0x800 bytes on the fallback stack lands above the 8 bytes
    of the sample librm. *)
Lemma fallback_stack_slot_above_librm_witness :
  exists s',
    @copy_to_rm_stack (Sample.build true) 0x2000 0x800
      (@librm_init (Sample.build true) Sample.cold)
    = Done 0x800 s'
    /\ installed_librm s' = Sample.p2v 0x7c00.
Proof.
  assert (Hflat : forall k, 0 <= k <= 0x1000 ->
            @phys_to_virt (Sample.build true) (0x7c00 + k)
            = @phys_to_virt (Sample.build true) 0x7c00 + k).
  { intros k Hk.
    change (@phys_to_virt (Sample.build true)) with Sample.p2v.
    rewrite !sample_p2v_low by lia. lia. }
  destruct (@fallback_stack_slot_above_librm (Sample.build true) 0x2000 0x800
              Sample.cold eq_refl Hflat ltac:(lia) ltac:(cbn; lia))
    as (s' & Hpush & Hinst & _).
  exists s'. split; [exact Hpush|exact Hinst].
Defined.

